(** * The select component of chakra-ui: [SelectField], [Select], [SelectIcon]

    A shallow embedding of [packages/select/src/select.tsx].  The file is a
    set of React function components: each one takes a property object and
    returns an element description.  Property objects are finite maps from
    names to JavaScript values, JSX attribute lists are folded left to right
    (a later attribute or spread overwrites an earlier one), and
    [React.createElement] / [React.cloneElement] are written out as React
    defines them. *)

From stdpp Require Import gmap strings list fin_maps.

Set Warnings "-register-all".

(** ** JavaScript values and React elements *)

(** A value is a primitive, an opaque function, an array, a plain object or a
    React element.  The type of an element is a host tag (["option"]), a
    chakra-styled tag with its base style ([chakra.select], [chakra("div",
    {baseStyle})]) or a function component. *)
Inductive val :=
  | VUndef
  | VNull
  | VBool (b : bool)
  | VNum (n : Z)
  | VStr (s : string)
  | VFun (name : string)
  | VArr (items : list val)
  | VObj (fields : gmap string val)
  | VElem (type : etype) (key ref : val) (props : gmap string val)
with etype :=
  | Host (tag : string)
  | Chakra (tag : string) (baseStyle : gmap string val)
  | Component (name : string).

Abbreviation props := (gmap string val).

(** The outcome of a call that may throw. *)
Inductive result (A : Type) :=
  | Ok (a : A)
  | Throw (msg : string).
Arguments Ok {A} a.
Arguments Throw {A} msg.

Definition bind {A B} (r : result A) (k : A → result B) : result B :=
  match r with
  | Ok a => k a
  | Throw msg => Throw msg
  end.

(** [o.k], which is [undefined] for a name the object does not have. *)
Definition get (k : string) (o : props) : val := default VUndef (o !! k).

(** [v !== undefined] *)
Definition defined (v : val) : bool :=
  match v with
  | VUndef => false
  | _ => true
  end.

(** JavaScript truthiness, and [a && b]. *)
Definition truthy (v : val) : bool :=
  match v with
  | VUndef | VNull => false
  | VBool b => b
  | VNum n => negb (n =? 0)%Z
  | VStr s => negb (String.eqb s "")
  | _ => true
  end.

Definition js_and (a b : val) : val := if truthy a then b else a.

(** The object left by a rest pattern [{ k1, ..., kn, ...rest } = o]. *)
Definition omit (ks : list string) (o : props) : props :=
  filter (λ kv, kv.1 ∉ ks) o.

(** The own enumerable properties that a spread [{...v}] copies.  [undefined],
    [null], booleans and numbers have none.  Every spread in the source is
    typed as an object or [undefined]; other values are given no
    properties. *)
Definition own_props (v : val) : props :=
  match v with
  | VObj o => o
  | _ => ∅
  end.

(** One entry of a JSX attribute list or of an object literal. *)
Inductive attr :=
  | Attr (name : string) (value : val)
  | Spread (source : val).

Definition add_attr (acc : props) (a : attr) : props :=
  match a with
  | Attr k v => <[k := v]> acc
  | Spread s => own_props s ∪ acc
  end.

(** The object a JSX attribute list evaluates to: entries are applied left to
    right, so the rightmost entry for a name is the one that stays. *)
Definition jsx (attrs : list attr) : props := foldl add_attr ∅ attrs.

(** ** React *)

Definition RESERVED_PROPS : list string := ["key"; "ref"; "__self"; "__source"].

(** [props.children] is set from the child arguments: not at all for none,
    the child itself for one, an array for more. *)
Definition with_children (children : list val) (p : props) : props :=
  match children with
  | [] => p
  | [c] => <["children" := c]> p
  | _ => <["children" := VArr children]> p
  end.

(** [config.key] and [config.ref] count only when they are not [undefined];
    the element's key is kept as the value React turns into a string. *)
Definition valid_or (fallback : val) (config : props) (k : string) : val :=
  if defined (get k config) then get k config else fallback.

Definition createElement (type : etype) (config : props) (children : list val) : val :=
  VElem type (valid_or VNull config "key") (valid_or VNull config "ref")
        (with_children children (omit RESERVED_PROPS config)).

(** [React.cloneElement]: the original props overwritten by [config].  React
    throws on [null] and [undefined]; any other value that is not an element
    is rejected by the host runtime when the tree is rendered, which is
    folded into the same outcome here.  No element type of this file has
    [defaultProps]. *)
Definition cloneElement (element : val) (config : props) (children : list val) : result val :=
  match element with
  | VElem type key ref p =>
      Ok (VElem type (valid_or key config "key") (valid_or ref config "ref")
                (with_children children (omit RESERVED_PROPS config ∪ p)))
  | _ => Throw "React.cloneElement(...): The argument must be a React element"
  end.

Definition elem_props (el : val) : props :=
  match el with
  | VElem _ _ _ p => p
  | _ => ∅
  end.

Definition elem_type (el : val) : option etype :=
  match el with
  | VElem t _ _ _ => Some t
  | _ => None
  end.

Definition elem_key (el : val) : val :=
  match el with
  | VElem _ k _ _ => k
  | _ => VUndef
  end.

Definition elem_ref (el : val) : val :=
  match el with
  | VElem _ _ r _ => r
  | _ => VUndef
  end.

(** The child slots of an element, as written in its [children] prop. *)
Definition child_slots (el : val) : list val :=
  match elem_props el !! "children" with
  | None => []
  | Some (VArr l) => l
  | Some c => [c]
  end.

(** The nodes React makes of a children value: [undefined], [null] and
    booleans make none, arrays are flattened, everything else is one node. *)
Fixpoint child_nodes (v : val) : list val :=
  match v with
  | VUndef | VNull | VBool _ => []
  | VArr l => (fix go (l : list val) : list val :=
                 match l with
                 | [] => []
                 | x :: l' => child_nodes x ++ go l'
                 end) l
  | _ => [v]
  end.

Definition is_element (v : val) : bool :=
  match v with
  | VElem _ _ _ _ => true
  | _ => false
  end.

(** React DOM writes a boolean attribute such as [disabled] exactly when the
    prop value is truthy. *)
Definition dom_boolean_attr (name : string) (el : val) : bool :=
  truthy (get name (elem_props el)).

(** ** Utilities imported from [@chakra-ui/utils] and [@chakra-ui/system] *)

(** The class token a value contributes: a non-empty string. *)
Definition class_name (v : val) : option string :=
  match v with
  | VStr s => if String.eqb s "" then None else Some s
  | _ => None
  end.

(** Modelled from the spec: [cx] of [@chakra-ui/utils] is not part of this
    file.  The spec says the rendered class always includes the fixed base
    token, concatenated with any class the caller supplies: the supplied
    (non-empty string) names are joined, in order, with single spaces. *)
Definition cx (names : list val) : val :=
  VStr (String.concat " " (omap class_name names)).

(** Modelled from the spec: [split] of [@chakra-ui/utils] is not part of this
    file.  The spec says it partitions a property mapping into the subset
    whose names are in the given list and the subset whose names are not. *)
Definition split (object : props) (keys : list string) : props * props :=
  (filter (λ kv, kv.1 ∈ keys) object, filter (λ kv, kv.1 ∉ keys) object).

Definition chakra_select : etype := Chakra "select" ∅.
Definition chakra_div : etype := Chakra "div" ∅.

Section Select.

(** Modelled from the spec: [useFormControl] of [@chakra-ui/form-control] and
    [useStyleConfig] of [@chakra-ui/system] are not part of this file.  The
    spec describes them as functions that read the ambient context (form
    grouping, theme): the first turns the raw properties into the merged
    accessibility and validation attributes, the second resolves the style
    tokens of a component name and its properties.  Both are parameters, so
    every result holds for whatever they return. *)
Context {Ambient : Type}.
Variable useFormControl : Ambient → props → props.
Variable useStyleConfig : Ambient → string → props → props.

(** The fixed list [layoutPropNames] and the names [omitThemingProps]
    strips, both defined in [@chakra-ui/system]. *)
Variable layoutPropNames : list string.
Variable themingPropNames : list string.

(** Modelled from the spec: [omitThemingProps] of [@chakra-ui/system] is not
    part of this file.  The spec says it removes the style-selection-only
    properties and leaves the remaining ones as they are. *)
Definition omitThemingProps (p : props) : props := omit themingPropNames p.

(** *** SelectField *)

Definition SelectField (amb : Ambient) (p : props) (ref : val) : val :=
  let children := get "children" p in
  let placeholder := get "placeholder" p in
  let className := get "className" p in
  let isDisabled := get "isDisabled" p in
  let rest := omit ["children"; "placeholder"; "className"; "isDisabled"] p in
  let select := useFormControl amb rest in
  createElement chakra_select
    (jsx [ Spread (VObj select);
           Spread (VObj rest);
           Attr "ref" ref;
           Attr "className" (cx [VStr "chakra-select"; className]);
           Attr "disabled" isDisabled ])
    [ js_and placeholder
        (createElement (Host "option") (jsx [Attr "value" (VStr "")]) [placeholder]);
      children ].

(** *** DefaultIcon and IconWrapper *)

Definition DefaultIcon (p : props) : val :=
  createElement (Host "svg")
    (jsx [ Attr "viewBox" (VStr "0 0 24 24"); Spread (VObj p) ])
    [ createElement (Host "path")
        (jsx [ Attr "fill" (VStr "currentColor");
               Attr "d" (VStr "M16.59 8.59L12 13.17 7.41 8.59 6 10l6 6 6-6z") ])
        [] ].

Definition IconWrapper : etype :=
  Chakra "div"
    (jsx [ Attr "position" (VStr "absolute");
           Attr "display" (VStr "inline-flex");
           Attr "width" (VStr "1.5rem");
           Attr "height" (VStr "100%");
           Attr "alignItems" (VStr "center");
           Attr "justifyContent" (VStr "center");
           Attr "right" (VStr "0.5rem");
           Attr "pointerEvents" (VStr "none");
           Attr "zIndex" (VNum 2);
           Attr "top" (VStr "50%");
           Attr "transform" (VStr "translateY(-50%)") ]).

(** *** SelectIcon *)

(** The attributes forced onto the icon by [React.cloneElement]. *)
Definition icon_overrides : props :=
  jsx [ Attr "role" (VStr "presentation");
        Attr "className" (VStr "chakra-select__icon");
        Attr "focusable" (VBool false);
        Attr "aria-hidden" (VBool true);
        Attr "style" (VObj (jsx [ Attr "width" (VStr "1em");
                                  Attr "height" (VStr "1em");
                                  Attr "color" (VStr "currentColor") ])) ].

Definition SelectIcon (p : props) : result val :=
  let children :=
    if defined (get "children" p) then get "children" p
    else createElement (Component "DefaultIcon") ∅ [] in
  let rest := omit ["children"] p in
  bind (cloneElement children icon_overrides []) (λ clone,
    Ok (createElement IconWrapper
          (jsx [ Spread (VObj rest);
                 Attr "className" (VStr "chakra-select__icon-wrapper");
                 Attr "children" clone ])
          [])).

(** *** Select *)

Definition Select (amb : Ambient) (p : props) (ref : val) : val :=
  let styles := useStyleConfig amb "Select" p in
  let stripped := omitThemingProps p in
  let rootProps := get "rootProps" stripped in
  let placeholder := get "placeholder" stripped in
  let icon := get "icon" stripped in
  let color := get "color" stripped in
  let rest := omit ["rootProps"; "placeholder"; "icon"; "color"] stripped in
  let '(layoutProps, otherProps) := split rest layoutPropNames in
  createElement chakra_div
    (jsx [ Attr "className" (VStr "chakra-select__wrapper");
           Attr "__css" (VObj (jsx [ Attr "width" (VStr "100%");
                                     Attr "position" (VStr "relative");
                                     Attr "color" color ]));
           Spread (VObj layoutProps);
           Spread rootProps ])
    [ createElement (Component "SelectField")
        (jsx [ Attr "ref" ref;
               Attr "placeholder" placeholder;
               Spread (VObj otherProps);
               Attr "__css" (get "field" styles) ])
        [ get "children" p ];
      createElement (Component "SelectIcon")
        (jsx [ Attr "data-disabled" (get "isDisabled" p);
               Attr "children" icon;
               Attr "color" color;
               Attr "__css" (get "icon" styles) ])
        [] ].

(** The intermediate objects of [Select], named as in the source. *)
Definition Select_rest (p : props) : props :=
  omit ["rootProps"; "placeholder"; "icon"; "color"] (omitThemingProps p).
Definition Select_layoutProps (p : props) : props :=
  (split (Select_rest p) layoutPropNames).1.
Definition Select_otherProps (p : props) : props :=
  (split (Select_rest p) layoutPropNames).2.
Definition Select_rootProps (p : props) : props :=
  own_props (get "rootProps" (omitThemingProps p)).

(** *** Rendering *)

(** One step of React's rendering: an element whose type is one of the
    components of this file is replaced by what the component returns (a
    [forwardRef] component receives the element's ref); any other element
    is left as it is. *)
Definition render_component (amb : Ambient) (el : val) : result val :=
  match el with
  | VElem (Component name) _ ref p =>
      if String.eqb name "Select" then Ok (Select amb p ref)
      else if String.eqb name "SelectField" then Ok (SelectField amb p ref)
      else if String.eqb name "SelectIcon" then SelectIcon p
      else if String.eqb name "DefaultIcon" then Ok (DefaultIcon p)
      else Ok el
  | _ => Ok el
  end.

Definition nth_child (i : nat) (el : val) : val :=
  default VUndef (child_slots el !! i).

(** The two children of the wrapper returned by [Select]. *)
Definition Select_field_element (amb : Ambient) (p : props) (ref : val) : val :=
  nth_child 0 (Select amb p ref).
Definition Select_icon_element (amb : Ambient) (p : props) (ref : val) : val :=
  nth_child 1 (Select amb p ref).

End Select.

(** ** A concrete setting in which the components can be run *)

(** The ambient context: the attributes the enclosing form field imposes on
    its control, and the style tokens the theme holds for each component. *)
Record ambient := {
  form_attrs : props;
  theme_styles : gmap string props
}.

Definition field_useFormControl (amb : ambient) (rest : props) : props :=
  form_attrs amb ∪ rest.

Definition theme_useStyleConfig (amb : ambient) (name : string) (p : props) : props :=
  default ∅ (theme_styles amb !! name).

(** A form-control resolution that would also honour an [isDisabled] it is
    handed. *)
Definition isDisabled_aware_useFormControl (amb : ambient) (rest : props) : props :=
  if truthy (get "isDisabled" rest)
  then <["disabled" := VBool true]> (field_useFormControl amb rest)
  else field_useFormControl amb rest.

Definition select_styles : props :=
  jsx [ Attr "field" (VObj (jsx [ Attr "fontSize" (VStr "md") ]));
        Attr "icon" (VObj (jsx [ Attr "fontSize" (VStr "1.25rem") ])) ].

Definition invalid_field : ambient :=
  {| form_attrs := jsx [ Attr "id" (VStr "field-1");
                         Attr "aria-invalid" (VBool true);
                         Attr "disabled" (VBool true) ];
     theme_styles := {[ "Select" := select_styles ]} |}.

Definition some_layoutPropNames : list string :=
  ["width"; "height"; "margin"; "padding"; "top"; "right"; "bottom"; "left"; "position"].

Definition some_themingPropNames : list string :=
  ["styleConfig"; "size"; "variant"; "colorScheme"].

Definition option_a : val :=
  createElement (Host "option") (jsx [ Attr "value" (VStr "a") ]) [ VStr "A" ].

Definition CustomIcon : val :=
  createElement (Component "CustomIcon")
    (jsx [ Attr "role" (VStr "img"); Attr "focusable" (VBool true) ]) [].

(** An icon with content of its own. *)
Definition StarIcon : val :=
  createElement (Host "svg")
    (jsx [ Attr "viewBox" (VStr "0 0 20 20"); Attr "role" (VStr "img") ])
    [ createElement (Host "path") (jsx [ Attr "d" (VStr "M10 1l3 6 6 1-4 4 1 7-6-3-6 3 1-7-4-4 6-1z") ]) [] ].

(** [<Select placeholder="Choose" isDisabled><option value="a">A</option></Select>] *)
Definition choose_props : props :=
  jsx [ Attr "placeholder" (VStr "Choose");
        Attr "isDisabled" (VBool true);
        Attr "children" option_a ].

(** [<Select icon={<CustomIcon/>} color="red.500" width="50%" iconSize={6}
      rootProps={{ width: "10rem" }}/>] *)
Definition custom_icon_props : props :=
  jsx [ Attr "icon" CustomIcon;
        Attr "color" (VStr "red.500");
        Attr "width" (VStr "50%");
        Attr "iconSize" (VNum 6);
        Attr "rootProps" (VObj (jsx [ Attr "width" (VStr "10rem") ])) ].

(** [<SelectField aria-invalid={false} className="foo"/>] *)
Definition explicit_valid_props : props :=
  jsx [ Attr "aria-invalid" (VBool false); Attr "className" (VStr "foo") ].



(** The option [<option value="">{label}</option>] that stands for a
    placeholder, recognised among the nodes of a select. *)
Definition is_placeholder_option (label : string) (v : val) : bool :=
  match v with
  | VElem (Host tag) _ _ p =>
      String.eqb tag "option"
      && match p !! "value" with
         | Some (VStr value) => String.eqb value ""
         | _ => false
         end
      && match p !! "children" with
         | Some (VStr l) => String.eqb l label
         | _ => false
         end
  | _ => false
  end.

(** The class tokens of a class attribute: its words between white space. *)
Definition class_tokens (cls : val) : list string :=
  match cls with
  | VStr s => String.words s
  | _ => []
  end.

(** ** Tactics *)

(** [k ≠ "name"] (or its mirror) from a hypothesis that [k] is outside a list
    of names containing ["name"]. *)
Ltac name_ne :=
  let E := fresh in
  intros E; subst;
  match goal with
  | H : _ ∉ _ |- _ => apply H; compute_done
  end.

Ltac jsx_unfold := unfold jsx; cbn [foldl add_attr own_props].

(** [k ∉ l] from a hypothesis that [k] is outside a longer list of names. *)
Ltac name_notin :=
  match goal with
  | H : ?k ∉ _ |- ?k ∉ _ =>
      let Hin := fresh in
      intros Hin; apply H; revert Hin; rewrite !elem_of_cons, ?elem_of_nil; tauto
  end.

(** * Properties *)

(** ** Objects, JSX attribute lists and elements *)

Lemma lookup_omit (ks : list string) (o : props) (k : string) :
  omit ks o !! k = if decide (k ∈ ks) then None else o !! k.
Proof.
  unfold omit. case_decide as Hk.
  - apply map_lookup_filter_None. right. intros x _ Hx. by apply Hx.
  - destruct (o !! k) as [x|] eqn:E.
    + by apply map_lookup_filter_Some.
    + apply map_lookup_filter_None. by left.
Qed.

Lemma lookup_split_picked (o : props) (ks : list string) (k : string) :
  (split o ks).1 !! k = if decide (k ∈ ks) then o !! k else None.
Proof.
  unfold split; simpl. case_decide as Hk.
  - destruct (o !! k) as [x|] eqn:E.
    + by apply map_lookup_filter_Some.
    + apply map_lookup_filter_None. by left.
  - apply map_lookup_filter_None. right. intros x _ Hx. by apply Hk.
Qed.

Lemma lookup_split_omitted (o : props) (ks : list string) (k : string) :
  (split o ks).2 !! k = if decide (k ∈ ks) then None else o !! k.
Proof. apply lookup_omit. Qed.

Lemma option_union_match (a b : option val) :
  a ∪ b = match a with Some v => Some v | None => b end.
Proof. by destruct a, b. Qed.

Lemma get_lookup (o : props) (k : string) (v : val) :
  o !! k = Some v → get k o = v.
Proof. unfold get. by intros ->. Qed.

Lemma lookup_createElement_omit (t : etype) (config : props) (cs : list val) (k : string) :
  k ≠ "children" →
  elem_props (createElement t config cs) !! k = omit RESERVED_PROPS config !! k.
Proof.
  intros Hc. unfold createElement; cbn [elem_props].
  destruct cs as [|c [|c' cs]]; cbn [with_children];
    by rewrite ?lookup_insert_ne by done.
Qed.

Lemma lookup_createElement (t : etype) (config : props) (cs : list val) (k : string) :
  k ≠ "children" → k ∉ RESERVED_PROPS →
  elem_props (createElement t config cs) !! k = config !! k.
Proof.
  intros Hc Hr. rewrite lookup_createElement_omit, lookup_omit by done.
  by case_decide.
Qed.

Lemma children_createElement (t : etype) (config : props) (c c' : val) (cs : list val) :
  elem_props (createElement t config (c :: c' :: cs)) !! "children"
  = Some (VArr (c :: c' :: cs)).
Proof. unfold createElement; cbn [elem_props with_children]. apply lookup_insert_eq. Qed.

Lemma child_slots_createElement (t : etype) (config : props) (c c' : val) (cs : list val) :
  child_slots (createElement t config (c :: c' :: cs)) = c :: c' :: cs.
Proof. unfold child_slots. by rewrite children_createElement. Qed.

Lemma lookup_createElement_childless_omit (t : etype) (config : props) (k : string) :
  elem_props (createElement t config []) !! k = omit RESERVED_PROPS config !! k.
Proof. done. Qed.

Lemma lookup_createElement_childless (t : etype) (config : props) (k : string) :
  k ∉ RESERVED_PROPS → elem_props (createElement t config []) !! k = config !! k.
Proof.
  intros Hr. rewrite lookup_createElement_childless_omit, lookup_omit.
  by case_decide.
Qed.

Lemma child_createElement (t : etype) (config : props) (c : val) :
  elem_props (createElement t config [c]) !! "children" = Some c.
Proof. unfold createElement; cbn [elem_props with_children]. apply lookup_insert_eq. Qed.

Lemma lookup_cloneElement (el : val) (config : props) (cl : val) (k : string) :
  cloneElement el config [] = Ok cl → k ∉ RESERVED_PROPS →
  elem_props cl !! k = (config ∪ elem_props el) !! k.
Proof.
  destruct el; try discriminate. intros [= <-] Hr. cbn [elem_props with_children].
  rewrite !lookup_union, lookup_omit. by case_decide.
Qed.

Lemma child_nodes_pair (a b : val) :
  child_nodes (VArr [a; b]) = child_nodes a ++ child_nodes b.
Proof. cbn. by rewrite app_nil_r. Qed.

Section Select_properties.

Context {Ambient : Type}.
Variable useFormControl : Ambient → props → props.
Variable useStyleConfig : Ambient → string → props → props.
Variable layoutPropNames : list string.
Variable themingPropNames : list string.

(** ** SelectField *)

Lemma SelectField_lookup_disabled (amb : Ambient) (p : props) (ref : val) :
  elem_props (SelectField useFormControl amb p ref) !! "disabled"
  = Some (get "isDisabled" p).
Proof using Type.
  unfold SelectField. rewrite lookup_createElement.
  - jsx_unfold. apply lookup_insert_eq.
  - done.
  - compute_done.
Qed.

(** C1.  Whatever attribute set [useFormControl] returns, the native select
    carries the disabled attribute exactly when [isDisabled] is [true],
    for [isDisabled] among [true], [false] and [undefined]. *)
Theorem SelectField_disabled_iff_isDisabled
    (amb : Ambient) (p : props) (ref : val) (isDisabled : option bool) :
  get "isDisabled" p = from_option VBool VUndef isDisabled →
  dom_boolean_attr "disabled" (SelectField useFormControl amb p ref) = true
  ↔ isDisabled = Some true.
Proof using Type.
  intros H. unfold dom_boolean_attr.
  rewrite (get_lookup _ _ _ (SelectField_lookup_disabled amb p ref)), H.
  destruct isDisabled as [[]|]; cbn; split; congruence.
Qed.

(** The rest pattern of [SelectField]. *)
Local Abbreviation field_rest p :=
  (omit ["children"; "placeholder"; "className"; "isDisabled"] p).

Lemma SelectField_lookup_className (amb : Ambient) (p : props) (ref : val) :
  elem_props (SelectField useFormControl amb p ref) !! "className"
  = Some (cx [VStr "chakra-select"; get "className" p]).
Proof using Type.
  unfold SelectField. rewrite lookup_createElement; [|done|compute_done].
  jsx_unfold. rewrite lookup_insert_ne by done. apply lookup_insert_eq.
Qed.

Lemma SelectField_lookup_children (amb : Ambient) (p : props) (ref : val) :
  elem_props (SelectField useFormControl amb p ref) !! "children"
  = Some (VArr [ js_and (get "placeholder" p)
                   (createElement (Host "option") (jsx [Attr "value" (VStr "")])
                      [get "placeholder" p]);
                 get "children" p ]).
Proof using Type. unfold SelectField. apply children_createElement. Qed.

Lemma SelectField_lookup_other (amb : Ambient) (p : props) (ref : val) (k : string) :
  k ∉ ["disabled"; "className"; "children"] → k ∉ RESERVED_PROPS →
  elem_props (SelectField useFormControl amb p ref) !! k
  = match field_rest p !! k with
    | Some v => Some v
    | None => useFormControl amb (field_rest p) !! k
    end.
Proof using Type.
  intros Hk Hr. unfold SelectField.
  rewrite lookup_createElement; [|name_ne|done].
  jsx_unfold.
  rewrite !lookup_insert_ne by name_ne.
  rewrite !lookup_union, lookup_empty.
  destruct (field_rest p !! k), (useFormControl amb (field_rest p) !! k); done.
Qed.

Lemma placeholder_option_recognised (s : string) :
  is_placeholder_option s
    (createElement (Host "option") (jsx [Attr "value" (VStr "")]) [VStr s]) = true.
Proof using Type.
  unfold createElement; cbn [is_placeholder_option with_children].
  rewrite lookup_insert_eq, lookup_insert_ne, lookup_omit by done.
  rewrite decide_False by compute_done.
  jsx_unfold. rewrite lookup_insert_eq. cbn. by rewrite String.eqb_refl.
Qed.

(** C2.  A non-empty placeholder string makes [SelectField] put exactly one
    option with empty value and the placeholder as label in front of the
    nodes of the supplied children; for the empty string and for
    [undefined] it adds no element at all, so no such option. *)
Theorem SelectField_placeholder_option (amb : Ambient) (p : props) (ref : val) :
  let rendered :=
    child_nodes (get "children" (elem_props (SelectField useFormControl amb p ref))) in
  let supplied := child_nodes (get "children" p) in
  (∀ s, get "placeholder" p = VStr s → s ≠ "" →
     ∃ o, rendered = o :: supplied
          ∧ o = createElement (Host "option") (jsx [Attr "value" (VStr "")]) [VStr s]
          ∧ is_placeholder_option s o = true
          ∧ length (List.filter (is_placeholder_option s) rendered)
            = S (length (List.filter (is_placeholder_option s) supplied)))
  ∧ (get "placeholder" p = VStr "" ∨ get "placeholder" p = VUndef →
     List.filter is_element rendered = List.filter is_element supplied
     ∧ ∀ label, List.filter (is_placeholder_option label) rendered
                = List.filter (is_placeholder_option label) supplied).
Proof using Type.
  intros rendered supplied. subst rendered supplied.
  rewrite (get_lookup _ _ _ (SelectField_lookup_children amb p ref)), child_nodes_pair.
  split.
  - intros s Hs Hne. rewrite Hs. unfold js_and.
    assert (truthy (VStr s) = true) as ->.
    { cbn. apply negb_true_iff. by apply String.eqb_neq. }
    pose proof (placeholder_option_recognised s) as Ho.
    change (child_nodes (createElement (Host "option") (jsx [Attr "value" (VStr "")]) [VStr s]))
      with [createElement (Host "option") (jsx [Attr "value" (VStr "")]) [VStr s]].
    eexists. split; [reflexivity|]. split; [reflexivity|].
    split; [done|]. cbn [app List.filter]. by rewrite Ho.
  - intros [-> | ->]; by cbn.
Qed.

(** C3, as the code has it.  [disabled], [className] and [children] are set
    by [SelectField] itself; [placeholder] and [isDisabled] are consumed, so
    under these two names the select carries what [useFormControl] returned;
    under every other name an explicitly passed property takes precedence
    over the attribute of the same name returned by [useFormControl], which
    reaches the select only under a name the caller did not pass. *)
Theorem SelectField_explicit_over_form_control
    (amb : Ambient) (p : props) (ref : val) (k : string) :
  k ∉ RESERVED_PROPS →
  let select := SelectField useFormControl amb p ref in
  (k ∉ ["disabled"; "className"; "children"; "placeholder"; "isDisabled"] →
     (∀ v, p !! k = Some v → elem_props select !! k = Some v)
     ∧ (p !! k = None →
        elem_props select !! k = useFormControl amb (field_rest p) !! k))
  ∧ (k ∈ ["placeholder"; "isDisabled"] →
     elem_props select !! k = useFormControl amb (field_rest p) !! k)
  ∧ elem_props select !! "disabled" = Some (get "isDisabled" p)
  ∧ elem_props select !! "className"
    = Some (cx [VStr "chakra-select"; get "className" p])
  ∧ elem_props select !! "children"
    = Some (VArr [ js_and (get "placeholder" p)
                     (createElement (Host "option") (jsx [Attr "value" (VStr "")])
                        [get "placeholder" p]);
                   get "children" p ]).
Proof using Type.
  clear useStyleConfig layoutPropNames themingPropNames.
  intros Hr select. subst select. split; [|split; [|split; [|split]]].
  - intros Hk. rewrite SelectField_lookup_other by (done || name_notin).
    rewrite lookup_omit, decide_False by name_notin.
    split; [intros v ->|intros ->]; done.
  - intros Hk.
    assert (k = "placeholder" ∨ k = "isDisabled") as [-> | ->].
    { apply elem_of_cons in Hk as [Hk|Hk]; [by left|].
      apply list_elem_of_singleton in Hk. by right. }
    + rewrite SelectField_lookup_other by compute_done.
      by rewrite lookup_omit, decide_True by compute_done.
    + rewrite SelectField_lookup_other by compute_done.
      by rewrite lookup_omit, decide_True by compute_done.
  - apply SelectField_lookup_disabled.
  - apply SelectField_lookup_className.
  - apply SelectField_lookup_children.
Qed.

(** C7.  The class of the select is [cx("chakra-select", className)]: its
    tokens are the fixed token followed by those of the caller's class, and
    it is the fixed token alone when no class is supplied. *)
Theorem SelectField_class_composition (amb : Ambient) (p : props) (ref : val) :
  let cls := get "className" (elem_props (SelectField useFormControl amb p ref)) in
  (∀ c, get "className" p = VStr c →
     class_tokens cls = "chakra-select" :: String.words c)
  ∧ (get "className" p = VUndef → cls = VStr "chakra-select").
Proof using Type.
  intros cls. subst cls.
  rewrite (get_lookup _ _ _ (SelectField_lookup_className amb p ref)).
  split.
  - intros c ->. unfold cx.
    assert (omap class_name [VStr "chakra-select"; VStr c]
            = "chakra-select" :: (if String.eqb c "" then [] else [c])) as ->.
    { cbn [omap list_omap].
      change (class_name (VStr "chakra-select")) with (Some "chakra-select").
      cbn [class_name]. by destruct (String.eqb c ""). }
    destruct (String.eqb_spec c "") as [->|Hc]; reflexivity.
  - by intros ->.
Qed.

(** ** SelectIcon *)

Lemma SelectIcon_ok (p : props) (icon : val) :
  (if defined (get "children" p) then get "children" p
   else createElement (Component "DefaultIcon") ∅ []) = icon →
  is_element icon = true →
  ∃ clone,
    cloneElement icon icon_overrides [] = Ok clone
    ∧ SelectIcon p
      = Ok (createElement IconWrapper
              (jsx [ Spread (VObj (omit ["children"] p));
                     Attr "className" (VStr "chakra-select__icon-wrapper");
                     Attr "children" clone ]) []).
Proof using Type.
  intros Hicon Hel. unfold SelectIcon. rewrite Hicon.
  destruct icon; try discriminate. eexists. split; reflexivity.
Qed.

Lemma SelectIcon_lookup (p : props) (wrapper : val) (k : string) :
  SelectIcon p = Ok wrapper →
  k ∉ ["className"; "children"] → k ∉ RESERVED_PROPS →
  elem_props wrapper !! k = p !! k.
Proof using Type.
  unfold SelectIcon. intros H Hk Hr.
  destruct (cloneElement _ _ _) as [clone|] eqn:Hc; [|discriminate].
  cbn [bind] in H. injection H as <-.
  rewrite lookup_createElement; [|name_ne|done].
  jsx_unfold. rewrite !lookup_insert_ne by name_ne.
  rewrite lookup_union, lookup_empty, lookup_omit.
  rewrite decide_False by (rewrite list_elem_of_singleton; name_ne).
  by destruct (p !! k).
Qed.

Lemma icon_overrides_lookup (el clone : val) (k : string) (v : val) :
  cloneElement el icon_overrides [] = Ok clone →
  icon_overrides !! k = Some v → k ∉ RESERVED_PROPS →
  elem_props clone !! k = Some v.
Proof using Type.
  intros Hc Hv Hr. rewrite (lookup_cloneElement _ _ _ _ Hc Hr).
  by apply lookup_union_Some_l.
Qed.

(** What [DefaultIcon] does with the props it is given: every one of them
    ends up on the [svg]. *)
Lemma DefaultIcon_forwards (p : props) (k : string) (v : val) :
  p !! k = Some v → k ≠ "children" → k ∉ RESERVED_PROPS →
  elem_props (DefaultIcon p) !! k = Some v.
Proof using Type.
  intros Hv Hc Hr. unfold DefaultIcon. rewrite lookup_createElement by done.
  jsx_unfold. by apply lookup_union_Some_l.
Qed.

(** C4.  Whether the caller supplies an icon element or none (the default
    glyph is then used), the icon inside the wrapper is the element it was
    given re-created with the presentation attributes forced over its
    own. *)
Theorem SelectIcon_forces_presentation (p : props) (icon : val) :
  (get "children" p = VUndef ∧ icon = createElement (Component "DefaultIcon") ∅ [])
  ∨ (get "children" p = icon ∧ is_element icon = true) →
  ∃ wrapper clone,
    SelectIcon p = Ok wrapper
    ∧ elem_props wrapper !! "children" = Some clone
    ∧ elem_type clone = elem_type icon
    ∧ elem_props clone !! "role" = Some (VStr "presentation")
    ∧ elem_props clone !! "aria-hidden" = Some (VBool true)
    ∧ elem_props clone !! "focusable" = Some (VBool false)
    ∧ elem_props clone !! "className" = Some (VStr "chakra-select__icon")
    ∧ elem_props clone !! "style"
      = Some (VObj (jsx [ Attr "width" (VStr "1em");
                          Attr "height" (VStr "1em");
                          Attr "color" (VStr "currentColor") ])).
Proof using Type.
  intros H.
  assert ((if defined (get "children" p) then get "children" p
           else createElement (Component "DefaultIcon") ∅ []) = icon
          ∧ is_element icon = true) as [Hicon Hel].
  { destruct H as [[-> ->] | [<- Hel]]; [done|].
    destruct (get "children" p); try discriminate Hel. by split. }
  destruct (SelectIcon_ok p icon Hicon Hel) as (clone & Hc & ->).
  eexists _, clone. split; [done|].
  split.
  { rewrite lookup_createElement_childless by compute_done.
    jsx_unfold. apply lookup_insert_eq. }
  split; [destruct icon; try discriminate; by injection Hc as <-|].
  repeat split; by apply (icon_overrides_lookup icon); [|compute_done..].
Qed.

(** ** Select *)

Local Abbreviation Select' := (Select useStyleConfig layoutPropNames themingPropNames).
Local Abbreviation rest_of p := (Select_rest themingPropNames p).
Local Abbreviation layoutProps_of p := (Select_layoutProps layoutPropNames themingPropNames p).
Local Abbreviation otherProps_of p := (Select_otherProps layoutPropNames themingPropNames p).
Local Abbreviation rootProps_of p := (Select_rootProps themingPropNames p).
Local Abbreviation stripped p := (omitThemingProps themingPropNames p).
Local Abbreviation field_of amb p ref :=
  (Select_field_element useStyleConfig layoutPropNames themingPropNames amb p ref).
Local Abbreviation icon_of amb p ref :=
  (Select_icon_element useStyleConfig layoutPropNames themingPropNames amb p ref).

(** The base styles of the wrapper. *)
Local Abbreviation base_css p :=
  (VObj (jsx [ Attr "width" (VStr "100%");
               Attr "position" (VStr "relative");
               Attr "color" (get "color" (stripped p)) ])).

Lemma Select_child_slots (amb : Ambient) (p : props) (ref : val) :
  child_slots (Select' amb p ref) = [field_of amb p ref; icon_of amb p ref].
Proof using Type.
  unfold Select_field_element, Select_icon_element, nth_child, Select, split.
  cbn beta iota zeta. by rewrite child_slots_createElement.
Qed.

Lemma Select_field_element_eq (amb : Ambient) (p : props) (ref : val) :
  field_of amb p ref
  = createElement (Component "SelectField")
      (jsx [ Attr "ref" ref;
             Attr "placeholder" (get "placeholder" (stripped p));
             Spread (VObj (otherProps_of p));
             Attr "__css" (get "field" (useStyleConfig amb "Select" p)) ])
      [ get "children" p ].
Proof using Type.
  unfold Select_field_element, nth_child, Select, split.
  cbn beta iota zeta. by rewrite child_slots_createElement.
Qed.

Lemma Select_icon_element_eq (amb : Ambient) (p : props) (ref : val) :
  icon_of amb p ref
  = createElement (Component "SelectIcon")
      (jsx [ Attr "data-disabled" (get "isDisabled" p);
             Attr "children" (get "icon" (stripped p));
             Attr "color" (get "color" (stripped p));
             Attr "__css" (get "icon" (useStyleConfig amb "Select" p)) ])
      [].
Proof using Type.
  unfold Select_icon_element, nth_child, Select, split.
  cbn beta iota zeta. by rewrite child_slots_createElement.
Qed.

Lemma Select_wrapper_lookup (amb : Ambient) (p : props) (ref : val) (k : string) :
  k ≠ "children" → k ∉ RESERVED_PROPS →
  elem_props (Select' amb p ref) !! k
  = match rootProps_of p !! k with
    | Some v => Some v
    | None =>
        match layoutProps_of p !! k with
        | Some v => Some v
        | None =>
            if decide (k = "__css") then Some (base_css p)
            else if decide (k = "className") then Some (VStr "chakra-select__wrapper")
            else None
        end
    end.
Proof using Type.
  intros Hc Hr. unfold Select, split. cbn beta iota zeta.
  rewrite lookup_createElement by done. jsx_unfold.
  rewrite !lookup_union, !option_union_match.
  change (own_props (get "rootProps" (stripped p))) with (rootProps_of p).
  change (filter _ (omit _ (stripped p))) with (layoutProps_of p).
  destruct (rootProps_of p !! k); [done|].
  destruct (layoutProps_of p !! k); [done|].
  rewrite !lookup_insert, lookup_empty.
  repeat case_decide; simplify_eq; done.
Qed.

Lemma Select_field_lookup (amb : Ambient) (p : props) (ref : val) (k : string) :
  k ∉ ["children"; "__css"] → k ∉ RESERVED_PROPS →
  elem_props (field_of amb p ref) !! k
  = match otherProps_of p !! k with
    | Some v => Some v
    | None => if decide (k = "placeholder")
              then Some (get "placeholder" (stripped p)) else None
    end.
Proof using Type.
  intros Hk Hr. rewrite Select_field_element_eq.
  rewrite lookup_createElement; [|name_ne|done]. jsx_unfold.
  rewrite lookup_insert_ne by name_ne.
  rewrite lookup_union, option_union_match.
  change (filter _ (omit _ (stripped p))) with (otherProps_of p).
  destruct (otherProps_of p !! k); [done|].
  rewrite !lookup_insert, lookup_empty.
  repeat case_decide; simplify_eq; try done.
  exfalso. apply Hr. compute_done.
Qed.

Lemma Select_icon_lookup (amb : Ambient) (p : props) (ref : val) (k : string) :
  k ∉ ["data-disabled"; "children"; "color"; "__css"] →
  elem_props (icon_of amb p ref) !! k = None.
Proof using Type.
  intros Hk. rewrite Select_icon_element_eq.
  rewrite lookup_createElement_childless_omit, lookup_omit.
  case_decide; [done|]. jsx_unfold.
  by rewrite !lookup_insert_ne by name_ne.
Qed.

Lemma get_stripped (k : string) (p : props) :
  get k (stripped p) = if decide (k ∈ themingPropNames) then VUndef else get k p.
Proof using Type.
  unfold omitThemingProps, get. rewrite lookup_omit. by case_decide.
Qed.

Lemma rest_lookup (p : props) (k : string) :
  rest_of p !! k
  = if decide (k ∈ ["rootProps"; "placeholder"; "icon"; "color"]) then None
    else if decide (k ∈ themingPropNames) then None
    else p !! k.
Proof using Type.
  unfold Select_rest, omitThemingProps. by rewrite !lookup_omit.
Qed.





Local Abbreviation render' :=
  (render_component useFormControl useStyleConfig layoutPropNames themingPropNames).

Lemma render_SelectField_element (amb : Ambient) (config : props) (cs : list val) :
  render' amb (createElement (Component "SelectField") config cs)
  = Ok (SelectField useFormControl amb
          (with_children cs (omit RESERVED_PROPS config))
          (valid_or VNull config "ref")).
Proof using Type. done. Qed.

Lemma render_SelectIcon_element (amb : Ambient) (config : props) (cs : list val) :
  render' amb (createElement (Component "SelectIcon") config cs)
  = SelectIcon (with_children cs (omit RESERVED_PROPS config)).
Proof using Type. done. Qed.

Lemma render_field_of (amb : Ambient) (p : props) (ref : val) :
  render' amb (field_of amb p ref)
  = Ok (SelectField useFormControl amb
          (elem_props (field_of amb p ref)) (elem_ref (field_of amb p ref))).
Proof using Type. by rewrite Select_field_element_eq. Qed.

Lemma render_icon_of (amb : Ambient) (p : props) (ref : val) :
  render' amb (icon_of amb p ref) = SelectIcon (elem_props (icon_of amb p ref)).
Proof using Type. by rewrite Select_icon_element_eq. Qed.

(** C9.  [iconSize] and [iconColor] stay among the remaining properties:
    being no layout (and no theming) names, they are attributes of the
    field element, and from there of the native select, while the
    [SelectIcon] element and the icon wrapper it renders have neither. *)
Theorem Select_iconSize_iconColor_go_to_field
    (amb : Ambient) (p : props) (ref : val) (k : string) :
  k ∈ ["iconSize"; "iconColor"] →
  k ∉ layoutPropNames → k ∉ themingPropNames →
  elem_props (field_of amb p ref) !! k = p !! k
  ∧ (∀ v select, p !! k = Some v →
       render' amb (field_of amb p ref) = Ok select →
       elem_props select !! k = Some v)
  ∧ elem_props (icon_of amb p ref) !! k = None
  ∧ (∀ wrapper, render' amb (icon_of amb p ref) = Ok wrapper →
       elem_props wrapper !! k = None).
Proof using Type.
  intros Hk HL HT.
  assert ((k ∉ ["children"; "__css"; "placeholder"; "className"; "isDisabled";
                "disabled"; "rootProps"; "icon"; "color"; "data-disabled"])
          ∧ (k ∉ RESERVED_PROPS)) as [Hn Hr].
  { apply elem_of_cons in Hk as [->|Hk]; [split; compute_done|].
    apply list_elem_of_singleton in Hk as ->. split; compute_done. }
  assert (elem_props (field_of amb p ref) !! k = p !! k) as Hfield.
  { rewrite Select_field_lookup by (done || name_notin).
    unfold Select_otherProps. rewrite lookup_split_omitted, decide_False by done.
    rewrite rest_lookup.
    rewrite decide_False by name_notin. rewrite decide_False by done.
    destruct (p !! k); [done|]. rewrite decide_False; [done|name_ne]. }
  assert (elem_props (icon_of amb p ref) !! k = None) as Hicon.
  { apply Select_icon_lookup. name_notin. }
  split; [done|]. split; [|split; [done|]].
  - intros v select Hv. rewrite render_field_of. intros [= <-].
    rewrite SelectField_lookup_other by (done || name_notin).
    rewrite lookup_omit, decide_False by name_notin.
    by rewrite Hfield, Hv.
  - intros wrapper Hw. rewrite render_icon_of in Hw.
    rewrite (SelectIcon_lookup _ _ _ Hw) by (done || name_notin).
    done.
Qed.

(** C10.  For every input (the icon being an element or not given), the
    second child of the [Select] wrapper renders as the icon wrapper with
    class [chakra-select__icon-wrapper], holding exactly one icon element,
    and its [data-disabled] is the [isDisabled] of the [Select]. *)
Theorem Select_icon_wrapper_always_rendered (amb : Ambient) (p : props) (ref : val) :
  get "icon" p = VUndef ∨ is_element (get "icon" p) = true →
  ∃ wrapper icon,
    child_slots (Select' amb p ref) = [field_of amb p ref; icon_of amb p ref]
    ∧ render' amb (icon_of amb p ref) = Ok wrapper
    ∧ elem_type wrapper = Some IconWrapper
    ∧ elem_props wrapper !! "className" = Some (VStr "chakra-select__icon-wrapper")
    ∧ child_nodes (get "children" (elem_props wrapper)) = [icon]
    ∧ is_element icon = true
    ∧ elem_props wrapper !! "data-disabled" = Some (get "isDisabled" p).
Proof using Type.
  intros Hicon.
  assert (get "icon" (stripped p) = VUndef ∨ is_element (get "icon" (stripped p)) = true)
    as Hicon'.
  { rewrite get_stripped. case_decide; [by left|done]. }
  rewrite render_icon_of.
  set (q := elem_props (icon_of amb p ref)).
  assert (q !! "children" = Some (get "icon" (stripped p))) as Hq.
  { subst q. rewrite Select_icon_element_eq.
    rewrite lookup_createElement_childless by compute_done. jsx_unfold.
    rewrite !lookup_insert_ne by done. apply lookup_insert_eq. }
  assert (q !! "data-disabled" = Some (get "isDisabled" p)) as Hd.
  { subst q. rewrite Select_icon_element_eq.
    rewrite lookup_createElement_childless by compute_done. jsx_unfold.
    rewrite !lookup_insert_ne by done. apply lookup_insert_eq. }
  clearbody q.
  destruct (SelectIcon_ok q
              (if defined (get "children" q) then get "children" q
               else createElement (Component "DefaultIcon") ∅ []))
    as (clone & Hc & Hw); [reflexivity|..].
  { rewrite (get_lookup _ _ _ Hq).
    destruct Hicon' as [-> | Hel]; [reflexivity|].
    destruct (get "icon" (stripped p)); try discriminate Hel. reflexivity. }
  assert (is_element clone = true) as Hel.
  { destruct (if defined _ then _ else _); try discriminate Hc.
    injection Hc as <-. reflexivity. }
  eexists _, clone.
  split; [apply Select_child_slots|]. split; [exact Hw|].
  split; [reflexivity|].
  split. { rewrite lookup_createElement_childless by compute_done. jsx_unfold.
           rewrite lookup_insert_ne by done. apply lookup_insert_eq. }
  split. { unfold get. rewrite lookup_createElement_childless by compute_done.
           jsx_unfold. rewrite lookup_insert_eq. cbn [default].
           destruct clone; try discriminate Hel. reflexivity. }
  split; [exact Hel|].
  rewrite (SelectIcon_lookup _ _ _ Hw) by compute_done. exact Hd.
Qed.

(** ** Further properties of the components *)

Lemma Select_field_lookup_plain (amb : Ambient) (p : props) (ref : val) (k : string) :
  k ∉ layoutPropNames → k ∉ themingPropNames →
  k ∉ ["rootProps"; "placeholder"; "icon"; "color"; "children"; "__css"] →
  k ∉ RESERVED_PROPS →
  elem_props (field_of amb p ref) !! k = p !! k.
Proof using Type.
  clear useFormControl.
  intros HL HT Hk Hr. rewrite Select_field_lookup by (done || name_notin).
  unfold Select_otherProps. rewrite lookup_split_omitted, decide_False by done.
  rewrite rest_lookup. rewrite decide_False by name_notin.
  rewrite decide_False by done.
  destruct (p !! k); [done|]. rewrite decide_False; [done|name_ne].
Qed.

Lemma Select_field_lookup_placeholder (amb : Ambient) (p : props) (ref : val) :
  elem_props (field_of amb p ref) !! "placeholder"
  = Some (get "placeholder" (stripped p)).
Proof using Type.
  rewrite Select_field_lookup by compute_done.
  unfold Select_otherProps. rewrite lookup_split_omitted.
  case_decide; [done|]. rewrite rest_lookup.
  by rewrite decide_True by compute_done.
Qed.

Lemma Select_field_lookup_children (amb : Ambient) (p : props) (ref : val) :
  elem_props (field_of amb p ref) !! "children" = Some (get "children" p).
Proof using Type. rewrite Select_field_element_eq. apply child_createElement. Qed.

Lemma Select_icon_lookup_children (amb : Ambient) (p : props) (ref : val) :
  elem_props (icon_of amb p ref) !! "children" = Some (get "icon" (stripped p)).
Proof using Type.
  rewrite Select_icon_element_eq.
  rewrite lookup_createElement_childless by compute_done. jsx_unfold.
  rewrite !lookup_insert_ne by done. apply lookup_insert_eq.
Qed.

Lemma render_icon_of_ok (amb : Ambient) (p : props) (ref : val) :
  get "icon" p = VUndef ∨ is_element (get "icon" p) = true →
  ∃ wrapper, render' amb (icon_of amb p ref) = Ok wrapper.
Proof using Type.
  intros Hicon. rewrite render_icon_of.
  pose proof (Select_icon_lookup_children amb p ref) as Hq.
  set (q := elem_props (icon_of amb p ref)) in *. clearbody q.
  destruct (SelectIcon_ok q
              (if defined (get "children" q) then get "children" q
               else createElement (Component "DefaultIcon") ∅ []))
    as (clone & _ & Hw); [reflexivity| |by eexists].
  rewrite (get_lookup _ _ _ Hq), get_stripped.
  case_decide; [reflexivity|].
  destruct Hicon as [-> | Hel]; [reflexivity|].
  destruct (get "icon" p); try discriminate Hel. reflexivity.
Qed.

(** X1.  [placeholder] and [isDisabled] are taken out of the properties
    before anything is spread: under these two names the select carries what
    [useFormControl] returned, never what the caller passed. *)
Theorem SelectField_consumes_placeholder_and_isDisabled
    (amb : Ambient) (p : props) (ref : val) (k : string) :
  k ∈ ["placeholder"; "isDisabled"] →
  elem_props (SelectField useFormControl amb p ref) !! k
  = useFormControl amb (field_rest p) !! k.
Proof using Type.
  intros Hk.
  assert (k = "placeholder" ∨ k = "isDisabled") as [-> | ->].
  { apply elem_of_cons in Hk as [Hk|Hk]; [by left|].
    apply list_elem_of_singleton in Hk. by right. }
  - rewrite SelectField_lookup_other by compute_done.
    by rewrite lookup_omit, decide_True by compute_done.
  - rewrite SelectField_lookup_other by compute_done.
    by rewrite lookup_omit, decide_True by compute_done.
Qed.

(** X2.  The form-control hook is called on the rest object only: a hook
    that differs from [useFormControl] on nothing but objects holding
    [children], [placeholder], [className] or [isDisabled] gives the same
    select. *)
Theorem SelectField_hook_sees_rest_only
    (useFormControl' : Ambient → props → props)
    (amb : Ambient) (p : props) (ref : val) :
  (∀ q, (∀ k, k ∈ ["children"; "placeholder"; "className"; "isDisabled"] →
              q !! k = None) →
        useFormControl amb q = useFormControl' amb q) →
  SelectField useFormControl amb p ref = SelectField useFormControl' amb p ref.
Proof using Type.
  intros H.
  assert (useFormControl amb (field_rest p) = useFormControl' amb (field_rest p)) as E.
  { apply H. intros k Hk. rewrite lookup_omit. by rewrite decide_True. }
  unfold SelectField. by rewrite E.
Qed.

(** X3.  [isDisabled] given to [Select] is no layout and no theming name, so
    it travels to [SelectField]: the select rendered inside a [Select] is
    disabled exactly when the [Select] has [isDisabled] true. *)
Theorem Select_isDisabled_disables_select
    (amb : Ambient) (p : props) (ref : val) (isDisabled : option bool) :
  "isDisabled" ∉ layoutPropNames → "isDisabled" ∉ themingPropNames →
  get "isDisabled" p = from_option VBool VUndef isDisabled →
  ∃ select,
    render' amb (field_of amb p ref) = Ok select
    ∧ (dom_boolean_attr "disabled" select = true ↔ isDisabled = Some true).
Proof using Type.
  intros HL HT Hd. rewrite render_field_of. eexists. split; [reflexivity|].
  unfold dom_boolean_attr.
  rewrite (get_lookup _ _ _ (SelectField_lookup_disabled _ _ _)).
  assert (get "isDisabled" (elem_props (field_of amb p ref)) = get "isDisabled" p) as ->.
  { unfold get. by rewrite Select_field_lookup_plain by (done || compute_done). }
  rewrite Hd. destruct isDisabled as [[]|]; cbn; split; congruence.
Qed.

(** X4.  A non-empty placeholder given to [Select] becomes the first option
    of the select rendered inside it, in front of the children of the
    [Select]. *)
Theorem Select_placeholder_first_option
    (amb : Ambient) (p : props) (ref : val) (s : string) :
  "placeholder" ∉ themingPropNames →
  get "placeholder" p = VStr s → s ≠ "" →
  ∃ select,
    render' amb (field_of amb p ref) = Ok select
    ∧ elem_type select = Some chakra_select
    ∧ child_nodes (get "children" (elem_props select))
      = createElement (Host "option") (jsx [Attr "value" (VStr "")]) [VStr s]
        :: child_nodes (get "children" p).
Proof using Type.
  intros HT Hs Hne. rewrite render_field_of. eexists. split; [reflexivity|].
  split; [reflexivity|].
  rewrite (get_lookup _ _ _ (SelectField_lookup_children _ _ _)), child_nodes_pair.
  rewrite (get_lookup _ _ _ (Select_field_lookup_placeholder amb p ref)).
  rewrite (get_lookup _ _ _ (Select_field_lookup_children amb p ref)).
  rewrite get_stripped, decide_False by done. rewrite Hs. unfold js_and.
  assert (truthy (VStr s) = true) as ->.
  { cbn. apply negb_true_iff. by apply String.eqb_neq. }
  reflexivity.
Qed.

Lemma SelectField_ref (amb : Ambient) (p : props) (ref : val) :
  elem_ref (SelectField useFormControl amb p ref) = if defined ref then ref else VNull.
Proof using Type.
  unfold SelectField, createElement. cbn [elem_ref]. unfold valid_or.
  assert (get "ref" (jsx [ Spread (VObj (useFormControl amb (field_rest p)));
                           Spread (VObj (field_rest p));
                           Attr "ref" ref;
                           Attr "className" (cx [VStr "chakra-select"; get "className" p]);
                           Attr "disabled" (get "isDisabled" p) ]) = ref) as ->; [|done].
  unfold get. jsx_unfold. rewrite !lookup_insert_ne by done.
  by rewrite lookup_insert_eq.
Qed.

(** X5.  The reference forwarded to [Select] is the reference of the select
    rendered inside it; the wrapper never gets it, its own reference being
    the one [rootProps] names, if any.  (React hands a component no property
    called [ref].) *)
Theorem Select_forwards_ref_to_select (amb : Ambient) (p : props) (ref : val) :
  p !! "ref" = None →
  (∃ select,
     render' amb (field_of amb p ref) = Ok select
     ∧ elem_ref select = if defined ref then ref else VNull)
  ∧ elem_ref (Select' amb p ref) = valid_or VNull (rootProps_of p) "ref".
Proof using Type.
  intros Hp.
  assert (rest_of p !! "ref" = None) as Hrest.
  { rewrite rest_lookup. by repeat case_decide. }
  split.
  - rewrite render_field_of. eexists. split; [reflexivity|].
    rewrite SelectField_ref.
    assert (elem_ref (field_of amb p ref) = if defined ref then ref else VNull) as ->.
    { rewrite Select_field_element_eq. unfold createElement. cbn [elem_ref].
      unfold valid_or.
      assert (get "ref" (jsx [ Attr "ref" ref;
                               Attr "placeholder" (get "placeholder" (stripped p));
                               Spread (VObj (otherProps_of p));
                               Attr "__css" (get "field" (useStyleConfig amb "Select" p)) ])
              = ref) as ->; [|done].
      unfold get. jsx_unfold. rewrite lookup_insert_ne by done.
      rewrite lookup_union, option_union_match.
      unfold Select_otherProps. rewrite lookup_split_omitted.
      case_decide; rewrite ?Hrest;
        by rewrite lookup_insert_ne, lookup_insert_eq by done. }
    by destruct ref.
  - unfold Select, split. cbn beta iota zeta. unfold createElement.
    cbn [elem_ref]. unfold valid_or.
    change (own_props (get "rootProps" (stripped p))) with (rootProps_of p).
    change (filter _ (omit _ (stripped p))) with (layoutProps_of p).
    assert (get "ref" (jsx [ Attr "className" (VStr "chakra-select__wrapper");
                             Attr "__css" (base_css p);
                             Spread (VObj (layoutProps_of p));
                             Spread (get "rootProps" (stripped p)) ])
            = get "ref" (rootProps_of p)) as ->; [|done].
    unfold Select_rootProps, get. jsx_unfold.
    rewrite !lookup_union, !option_union_match.
    destruct (own_props _ !! "ref"); [done|].
    unfold Select_layoutProps. rewrite lookup_split_picked.
    case_decide; rewrite ?Hrest; by rewrite !lookup_insert_ne by done.
Qed.

(** X6.  [rootProps], [icon] and [color] are taken out by [Select]: the
    field element has no attribute of these names, and the select rendered
    from it carries one only if [useFormControl] returns it. *)
Theorem Select_keeps_own_names_from_field
    (amb : Ambient) (p : props) (ref : val) (k : string) :
  k ∈ ["rootProps"; "icon"; "color"] →
  elem_props (field_of amb p ref) !! k = None
  ∧ ∃ select,
      render' amb (field_of amb p ref) = Ok select
      ∧ elem_props select !! k
        = useFormControl amb (field_rest (elem_props (field_of amb p ref))) !! k.
Proof using Type.
  intros Hk.
  assert ((k ∉ ["children"; "__css"; "placeholder"; "disabled"; "className";
                "isDisabled"]) ∧ (k ∉ RESERVED_PROPS)) as [Hn Hr].
  { apply elem_of_cons in Hk as [->|Hk]; [split; compute_done|].
    apply elem_of_cons in Hk as [->|Hk]; [split; compute_done|].
    apply list_elem_of_singleton in Hk as ->. split; compute_done. }
  assert (elem_props (field_of amb p ref) !! k = None) as Hfield.
  { rewrite Select_field_lookup by (done || name_notin).
    unfold Select_otherProps. rewrite lookup_split_omitted, rest_lookup.
    rewrite (decide_True (P := k ∈ ["rootProps"; "placeholder"; "icon"; "color"])).
    - case_decide; (rewrite decide_False; [done|name_ne]).
    - revert Hk. rewrite !elem_of_cons. tauto. }
  split; [done|]. rewrite render_field_of. eexists. split; [reflexivity|].
  rewrite SelectField_lookup_other by (done || name_notin).
  rewrite lookup_omit, decide_False by name_notin. by rewrite Hfield.
Qed.

(** X7.  The icon wrapper rendered by [Select] is given the color of the
    [Select] and the icon style the theme resolved for it. *)
Theorem Select_icon_wrapper_color_and_style (amb : Ambient) (p : props) (ref : val) :
  get "icon" p = VUndef ∨ is_element (get "icon" p) = true →
  "color" ∉ themingPropNames →
  ∃ wrapper,
    render' amb (icon_of amb p ref) = Ok wrapper
    ∧ elem_props wrapper !! "color" = Some (get "color" p)
    ∧ elem_props wrapper !! "__css" = Some (get "icon" (useStyleConfig amb "Select" p)).
Proof using Type.
  intros Hicon HT.
  destruct (render_icon_of_ok amb p ref Hicon) as [wrapper Hw].
  exists wrapper. split; [exact Hw|].
  rewrite render_icon_of in Hw.
  rewrite !(SelectIcon_lookup _ _ _ Hw) by compute_done.
  rewrite Select_icon_element_eq.
  rewrite !lookup_createElement_childless by compute_done. jsx_unfold.
  rewrite lookup_insert_ne, !lookup_insert_eq by done.
  by rewrite get_stripped, decide_False by done.
Qed.

Lemma lookup_cloneElement_any (el : val) (config : props) (cl : val) (k : string) :
  cloneElement el config [] = Ok cl →
  elem_props cl !! k = (omit RESERVED_PROPS config ∪ elem_props el) !! k.
Proof using Type. destruct el; try discriminate. by intros [= <-]. Qed.

(** X8.  Cloning forces five attributes and nothing else: the icon in the
    wrapper keeps the key and the reference of the caller's icon and every
    other property of it, its own children included. *)
Theorem SelectIcon_keeps_icon_content (p : props) (icon : val) :
  get "children" p = icon → is_element icon = true →
  ∃ wrapper clone,
    SelectIcon p = Ok wrapper
    ∧ elem_props wrapper !! "children" = Some clone
    ∧ elem_key clone = elem_key icon
    ∧ elem_ref clone = elem_ref icon
    ∧ ∀ k, k ∉ ["role"; "className"; "focusable"; "aria-hidden"; "style"] →
           elem_props clone !! k = elem_props icon !! k.
Proof using Type.
  clear useFormControl useStyleConfig layoutPropNames themingPropNames.
  intros Hicon Hel.
  destruct (SelectIcon_ok p icon) as (clone & Hc & ->); [|done|].
  { rewrite Hicon. by destruct icon. }
  exists (createElement IconWrapper
            (jsx [ Spread (VObj (omit ["children"] p));
                   Attr "className" (VStr "chakra-select__icon-wrapper");
                   Attr "children" clone ]) []), clone.
  split; [reflexivity|]. split.
  { rewrite lookup_createElement_childless by compute_done.
    jsx_unfold. apply lookup_insert_eq. }
  split; [|split].
  - destruct icon; try discriminate Hel. by injection Hc as <-.
  - destruct icon; try discriminate Hel. by injection Hc as <-.
  - intros k Hk. rewrite (lookup_cloneElement_any _ _ _ _ Hc).
    rewrite lookup_union, option_union_match, lookup_omit.
    case_decide; [done|].
    unfold icon_overrides. jsx_unfold.
    by rewrite !lookup_insert_ne, lookup_empty by name_ne.
Qed.

(** X9.  The default glyph stands in for an icon that is [undefined] only:
    with [icon={null}] the icon of the [Select] cannot be rendered,
    [React.cloneElement] throws. *)
Theorem Select_null_icon_throws (amb : Ambient) (p : props) (ref : val) :
  get "icon" p = VNull → "icon" ∉ themingPropNames →
  ∃ msg, render' amb (icon_of amb p ref) = Throw msg.
Proof using Type.
  intros Hicon HT. rewrite render_icon_of. unfold SelectIcon.
  rewrite (get_lookup _ _ _ (Select_icon_lookup_children amb p ref)).
  rewrite get_stripped, decide_False by done. rewrite Hicon.
  cbn [defined cloneElement bind]. by eexists.
Qed.

(** X10.  [DefaultIcon] is an [svg] that takes every property it is given,
    has the view box [0 0 24 24] unless given another, and whose only child
    is the chevron path, whatever children it is given. *)
Theorem DefaultIcon_svg (p : props) :
  elem_type (DefaultIcon p) = Some (Host "svg")
  ∧ (∀ k v, k ≠ "children" → k ∉ RESERVED_PROPS →
       p !! k = Some v → elem_props (DefaultIcon p) !! k = Some v)
  ∧ (p !! "viewBox" = None →
       elem_props (DefaultIcon p) !! "viewBox" = Some (VStr "0 0 24 24"))
  ∧ child_slots (DefaultIcon p)
    = [ createElement (Host "path")
          (jsx [ Attr "fill" (VStr "currentColor");
                 Attr "d" (VStr "M16.59 8.59L12 13.17 7.41 8.59 6 10l6 6 6-6z") ])
          [] ].
Proof using Type.
  clear useFormControl useStyleConfig layoutPropNames themingPropNames.
  split; [reflexivity|]. split; [|split].
  - intros k v Hc Hr Hv. by apply DefaultIcon_forwards.
  - intros Hv. unfold DefaultIcon. rewrite lookup_createElement by compute_done.
    jsx_unfold. rewrite lookup_union, option_union_match, Hv.
    apply lookup_insert_eq.
  - unfold child_slots, DefaultIcon. by rewrite child_createElement.
Qed.

(** X11.  The wrapper's class is [chakra-select__wrapper], and a [className]
    in [rootProps] takes its place rather than being added to it. *)
Theorem Select_wrapper_class_replaced_by_rootProps
    (amb : Ambient) (p : props) (ref : val) :
  "className" ∉ layoutPropNames →
  elem_props (Select' amb p ref) !! "className"
  = Some (default (VStr "chakra-select__wrapper") (rootProps_of p !! "className")).
Proof using Type.
  intros HL. rewrite Select_wrapper_lookup by compute_done.
  destruct (rootProps_of p !! "className"); [done|].
  unfold Select_layoutProps. rewrite lookup_split_picked, decide_False by done.
  by rewrite decide_False, decide_True by done.
Qed.

End Select_properties.

(** * The components run in the concrete setting *)

Lemma SelectField_disabled_iff_isDisabled_witness :
  dom_boolean_attr "disabled"
    (SelectField field_useFormControl invalid_field explicit_valid_props VNull) = true
  ↔ None = Some true.
Proof.
  apply (SelectField_disabled_iff_isDisabled field_useFormControl invalid_field
           explicit_valid_props VNull None).
  reflexivity.
Defined.

Lemma SelectField_placeholder_option_witness :
  ∃ o,
    child_nodes (get "children"
      (elem_props (SelectField field_useFormControl invalid_field choose_props VNull)))
    = o :: child_nodes (get "children" choose_props)
    ∧ o = createElement (Host "option") (jsx [Attr "value" (VStr "")]) [VStr "Choose"]
    ∧ is_placeholder_option "Choose" o = true
    ∧ length (List.filter (is_placeholder_option "Choose")
                (child_nodes (get "children"
                   (elem_props (SelectField field_useFormControl invalid_field
                                  choose_props VNull)))))
      = S (length (List.filter (is_placeholder_option "Choose")
                     (child_nodes (get "children" choose_props)))).
Proof.
  apply (proj1 (SelectField_placeholder_option field_useFormControl invalid_field
                  choose_props VNull) "Choose").
  - reflexivity.
  - discriminate.
Defined.

(** C3 as stated fails: the form field marks its control invalid, the caller
    passes [aria-invalid={false}], and the select carries the caller's
    value. *)
Lemma form_control_attribute_yields_to_explicit :
  ¬ (∀ k v,
       k ≠ "disabled" →
       field_useFormControl invalid_field
         (omit ["children"; "placeholder"; "className"; "isDisabled"] explicit_valid_props)
         !! k = Some v →
       is_Some (explicit_valid_props !! k) →
       elem_props (SelectField field_useFormControl invalid_field explicit_valid_props VNull)
         !! k = Some v).
Proof.
  intros H.
  specialize (H "aria-invalid" (VBool true)).
  assert (Some (VBool false) = Some (VBool true)) as E; [|discriminate E].
  apply H; [discriminate|reflexivity|by eexists].
Qed.

Lemma SelectField_explicit_over_form_control_witness :
  elem_props (SelectField field_useFormControl invalid_field explicit_valid_props VNull)
    !! "aria-invalid" = Some (VBool false)
  ∧ elem_props (SelectField field_useFormControl invalid_field explicit_valid_props VNull)
      !! "id" = Some (VStr "field-1").
Proof.
  pose proof (SelectField_explicit_over_form_control field_useFormControl
                invalid_field explicit_valid_props VNull "aria-invalid"
                ltac:(compute_done)) as [Hinvalid _].
  pose proof (SelectField_explicit_over_form_control field_useFormControl
                invalid_field explicit_valid_props VNull "id"
                ltac:(compute_done)) as [Hid _].
  destruct (Hinvalid ltac:(compute_done)) as [Hpassed _].
  destruct (Hid ltac:(compute_done)) as [_ Habsent].
  split.
  - apply Hpassed. reflexivity.
  - rewrite Habsent; reflexivity.
Defined.

Lemma SelectField_class_composition_witness :
  class_tokens
    (get "className"
       (elem_props (SelectField field_useFormControl invalid_field explicit_valid_props VNull)))
  = ["chakra-select"; "foo"].
Proof.
  apply (proj1 (SelectField_class_composition field_useFormControl invalid_field
                  explicit_valid_props VNull) "foo").
  reflexivity.
Defined.

Lemma SelectIcon_forces_presentation_witness :
  ∃ wrapper clone,
    SelectIcon (jsx [ Attr "children" CustomIcon ]) = Ok wrapper
    ∧ elem_props wrapper !! "children" = Some clone
    ∧ elem_type clone = elem_type CustomIcon
    ∧ elem_props clone !! "role" = Some (VStr "presentation")
    ∧ elem_props clone !! "aria-hidden" = Some (VBool true)
    ∧ elem_props clone !! "focusable" = Some (VBool false)
    ∧ elem_props clone !! "className" = Some (VStr "chakra-select__icon")
    ∧ elem_props clone !! "style"
      = Some (VObj (jsx [ Attr "width" (VStr "1em");
                          Attr "height" (VStr "1em");
                          Attr "color" (VStr "currentColor") ])).
Proof.
  apply (SelectIcon_forces_presentation (jsx [ Attr "children" CustomIcon ]) CustomIcon).
  right. split; reflexivity.
Defined.





Lemma Select_iconSize_iconColor_go_to_field_witness :
  elem_props (Select_field_element theme_useStyleConfig some_layoutPropNames
                some_themingPropNames invalid_field custom_icon_props VNull) !! "iconSize"
  = custom_icon_props !! "iconSize"
  ∧ elem_props (Select_icon_element theme_useStyleConfig some_layoutPropNames
                  some_themingPropNames invalid_field custom_icon_props VNull) !! "iconSize"
    = None.
Proof.
  pose proof (Select_iconSize_iconColor_go_to_field field_useFormControl
                theme_useStyleConfig some_layoutPropNames some_themingPropNames
                invalid_field custom_icon_props VNull "iconSize"
                ltac:(compute_done) ltac:(compute_done) ltac:(compute_done))
    as (Hfield & _ & Hicon & _).
  split; [exact Hfield|exact Hicon].
Defined.

Lemma Select_icon_wrapper_always_rendered_witness :
  ∃ wrapper icon,
    child_slots (Select theme_useStyleConfig some_layoutPropNames some_themingPropNames
                   invalid_field choose_props VNull)
    = [ Select_field_element theme_useStyleConfig some_layoutPropNames
          some_themingPropNames invalid_field choose_props VNull;
        Select_icon_element theme_useStyleConfig some_layoutPropNames
          some_themingPropNames invalid_field choose_props VNull ]
    ∧ render_component field_useFormControl theme_useStyleConfig some_layoutPropNames
        some_themingPropNames invalid_field
        (Select_icon_element theme_useStyleConfig some_layoutPropNames
           some_themingPropNames invalid_field choose_props VNull) = Ok wrapper
    ∧ elem_type wrapper = Some IconWrapper
    ∧ elem_props wrapper !! "className" = Some (VStr "chakra-select__icon-wrapper")
    ∧ child_nodes (get "children" (elem_props wrapper)) = [icon]
    ∧ is_element icon = true
    ∧ elem_props wrapper !! "data-disabled" = Some (get "isDisabled" choose_props).
Proof.
  apply (Select_icon_wrapper_always_rendered field_useFormControl theme_useStyleConfig
           some_layoutPropNames some_themingPropNames invalid_field choose_props VNull).
  left. reflexivity.
Defined.

(** The spec's first scenario: the select is disabled, its first option is the
    placeholder, its second the supplied one. *)
Example choose_renders_disabled_select_with_placeholder :
  ∃ select,
    render_component field_useFormControl theme_useStyleConfig some_layoutPropNames
      some_themingPropNames invalid_field
      (Select_field_element theme_useStyleConfig some_layoutPropNames
         some_themingPropNames invalid_field choose_props VNull) = Ok select
    ∧ elem_type select = Some chakra_select
    ∧ dom_boolean_attr "disabled" select = true
    ∧ child_nodes (get "children" (elem_props select))
      = [ createElement (Host "option") (jsx [Attr "value" (VStr "")]) [VStr "Choose"];
          option_a ].
Proof. eexists. split; [reflexivity|]. vm_compute. auto. Qed.

(** The spec's second scenario: the wrapper's base style has the caller's
    color, and the icon is the caller's, with the presentation attributes
    over its own. *)
Example custom_icon_rendered_with_forced_attributes :
  ∃ wrapper icon,
    render_component field_useFormControl theme_useStyleConfig some_layoutPropNames
      some_themingPropNames invalid_field
      (Select_icon_element theme_useStyleConfig some_layoutPropNames
         some_themingPropNames invalid_field custom_icon_props VNull) = Ok wrapper
    ∧ elem_props wrapper !! "children" = Some icon
    ∧ elem_type icon = Some (Component "CustomIcon")
    ∧ elem_props icon !! "role" = Some (VStr "presentation")
    ∧ elem_props icon !! "focusable" = Some (VBool false)
    ∧ elem_props wrapper !! "iconSize" = None.
Proof. eexists _, _. split; [reflexivity|]. vm_compute. auto 10. Qed.

(** Without an icon the default glyph is cloned, and the [svg] it renders
    carries the forced attributes. *)
Example default_glyph_rendered_as_svg :
  ∃ wrapper icon svg,
    SelectIcon ∅ = Ok wrapper
    ∧ elem_props wrapper !! "children" = Some icon
    ∧ elem_type icon = Some (Component "DefaultIcon")
    ∧ render_component field_useFormControl theme_useStyleConfig some_layoutPropNames
        some_themingPropNames invalid_field icon = Ok svg
    ∧ elem_type svg = Some (Host "svg")
    ∧ elem_props svg !! "aria-hidden" = Some (VBool true)
    ∧ elem_props svg !! "viewBox" = Some (VStr "0 0 24 24").
Proof.
  eexists _, _, _. split; [reflexivity|]. split; [reflexivity|].
  split; [reflexivity|]. split; [reflexivity|]. vm_compute. auto.
Qed.

(** ** The further properties in the concrete setting *)

Lemma SelectField_consumes_placeholder_and_isDisabled_witness :
  elem_props (SelectField field_useFormControl invalid_field choose_props VNull)
    !! "placeholder"
  = field_useFormControl invalid_field
      (omit ["children"; "placeholder"; "className"; "isDisabled"] choose_props)
      !! "placeholder".
Proof.
  apply (SelectField_consumes_placeholder_and_isDisabled field_useFormControl
           invalid_field choose_props VNull "placeholder").
  compute_done.
Defined.

Lemma SelectField_hook_sees_rest_only_witness :
  SelectField field_useFormControl invalid_field choose_props VNull
  = SelectField isDisabled_aware_useFormControl invalid_field choose_props VNull.
Proof.
  apply (SelectField_hook_sees_rest_only field_useFormControl
           isDisabled_aware_useFormControl invalid_field choose_props VNull).
  intros q Hq. unfold isDisabled_aware_useFormControl, get.
  rewrite (Hq "isDisabled" ltac:(compute_done)). reflexivity.
Defined.

Lemma Select_isDisabled_disables_select_witness :
  ∃ select,
    render_component field_useFormControl theme_useStyleConfig some_layoutPropNames
      some_themingPropNames invalid_field
      (Select_field_element theme_useStyleConfig some_layoutPropNames
         some_themingPropNames invalid_field choose_props VNull) = Ok select
    ∧ (dom_boolean_attr "disabled" select = true ↔ Some true = Some true).
Proof.
  apply (Select_isDisabled_disables_select field_useFormControl theme_useStyleConfig
           some_layoutPropNames some_themingPropNames invalid_field choose_props VNull
           (Some true)).
  - compute_done.
  - compute_done.
  - reflexivity.
Defined.

Lemma Select_placeholder_first_option_witness :
  ∃ select,
    render_component field_useFormControl theme_useStyleConfig some_layoutPropNames
      some_themingPropNames invalid_field
      (Select_field_element theme_useStyleConfig some_layoutPropNames
         some_themingPropNames invalid_field choose_props VNull) = Ok select
    ∧ elem_type select = Some chakra_select
    ∧ child_nodes (get "children" (elem_props select))
      = createElement (Host "option") (jsx [Attr "value" (VStr "")]) [VStr "Choose"]
        :: child_nodes (get "children" choose_props).
Proof.
  apply (Select_placeholder_first_option field_useFormControl theme_useStyleConfig
           some_layoutPropNames some_themingPropNames invalid_field choose_props VNull
           "Choose").
  - compute_done.
  - reflexivity.
  - discriminate.
Defined.

Lemma Select_forwards_ref_to_select_witness :
  (∃ select,
     render_component field_useFormControl theme_useStyleConfig some_layoutPropNames
       some_themingPropNames invalid_field
       (Select_field_element theme_useStyleConfig some_layoutPropNames
          some_themingPropNames invalid_field choose_props (VFun "selectRef")) = Ok select
     ∧ elem_ref select
       = if defined (VFun "selectRef") then VFun "selectRef" else VNull)
  ∧ elem_ref (Select theme_useStyleConfig some_layoutPropNames some_themingPropNames
                invalid_field choose_props (VFun "selectRef"))
    = valid_or VNull (Select_rootProps some_themingPropNames choose_props) "ref".
Proof.
  apply (Select_forwards_ref_to_select field_useFormControl theme_useStyleConfig
           some_layoutPropNames some_themingPropNames invalid_field choose_props
           (VFun "selectRef")).
  reflexivity.
Defined.

Lemma Select_keeps_own_names_from_field_witness :
  elem_props (Select_field_element theme_useStyleConfig some_layoutPropNames
                some_themingPropNames invalid_field custom_icon_props VNull) !! "color"
  = None.
Proof.
  apply (Select_keeps_own_names_from_field field_useFormControl theme_useStyleConfig
           some_layoutPropNames some_themingPropNames invalid_field custom_icon_props
           VNull "color").
  compute_done.
Defined.

Lemma Select_icon_wrapper_color_and_style_witness :
  ∃ wrapper,
    render_component field_useFormControl theme_useStyleConfig some_layoutPropNames
      some_themingPropNames invalid_field
      (Select_icon_element theme_useStyleConfig some_layoutPropNames
         some_themingPropNames invalid_field custom_icon_props VNull) = Ok wrapper
    ∧ elem_props wrapper !! "color" = Some (get "color" custom_icon_props)
    ∧ elem_props wrapper !! "__css"
      = Some (get "icon" (theme_useStyleConfig invalid_field "Select" custom_icon_props)).
Proof.
  apply (Select_icon_wrapper_color_and_style field_useFormControl theme_useStyleConfig
           some_layoutPropNames some_themingPropNames invalid_field custom_icon_props
           VNull).
  - right. reflexivity.
  - compute_done.
Defined.

Lemma SelectIcon_keeps_icon_content_witness :
  ∃ wrapper clone,
    SelectIcon (jsx [ Attr "children" StarIcon ]) = Ok wrapper
    ∧ elem_props wrapper !! "children" = Some clone
    ∧ elem_key clone = elem_key StarIcon
    ∧ elem_ref clone = elem_ref StarIcon
    ∧ ∀ k, k ∉ ["role"; "className"; "focusable"; "aria-hidden"; "style"] →
           elem_props clone !! k = elem_props StarIcon !! k.
Proof.
  apply (SelectIcon_keeps_icon_content (jsx [ Attr "children" StarIcon ]) StarIcon).
  - reflexivity.
  - reflexivity.
Defined.

Lemma Select_null_icon_throws_witness :
  ∃ msg,
    render_component field_useFormControl theme_useStyleConfig some_layoutPropNames
      some_themingPropNames invalid_field
      (Select_icon_element theme_useStyleConfig some_layoutPropNames
         some_themingPropNames invalid_field (jsx [ Attr "icon" VNull ]) VNull)
    = Throw msg.
Proof.
  apply (Select_null_icon_throws field_useFormControl theme_useStyleConfig
           some_layoutPropNames some_themingPropNames invalid_field
           (jsx [ Attr "icon" VNull ]) VNull).
  - reflexivity.
  - compute_done.
Defined.

Lemma Select_wrapper_class_replaced_by_rootProps_witness :
  elem_props
    (Select theme_useStyleConfig some_layoutPropNames some_themingPropNames invalid_field
       (jsx [ Attr "rootProps" (VObj (jsx [ Attr "className" (VStr "mine") ])) ]) VNull)
    !! "className"
  = Some (default (VStr "chakra-select__wrapper")
            (Select_rootProps some_themingPropNames
               (jsx [ Attr "rootProps" (VObj (jsx [ Attr "className" (VStr "mine") ])) ])
             !! "className")).
Proof.
  apply (Select_wrapper_class_replaced_by_rootProps theme_useStyleConfig
           some_layoutPropNames some_themingPropNames invalid_field
           (jsx [ Attr "rootProps" (VObj (jsx [ Attr "className" (VStr "mine") ])) ])
           VNull).
  compute_done.
Defined.

(** A class in [rootProps] leaves the wrapper without its own class. *)
Example rootProps_class_drops_wrapper_class :
  elem_props
    (Select theme_useStyleConfig some_layoutPropNames some_themingPropNames invalid_field
       (jsx [ Attr "rootProps" (VObj (jsx [ Attr "className" (VStr "mine") ])) ]) VNull)
    !! "className"
  = Some (VStr "mine").
Proof. reflexivity. Qed.
